(** * download-box: the background download manager

    A shallow embedding of [src/background/main.ts].  The class
    [DownloadManager] keeps a timer handle and the buffer [unchecked] of
    downloads that finished since the popup was last opened; it reacts to the
    download events of the browser, to messages of the popup and to its own
    timer.  Every [async] method is cut at its [await search(...)]: the part
    before the [await] runs when the method is called, the part after it is a
    suspended task that runs when the query is answered, and other handlers
    may run in between. *)

From Stdlib Require Import List String ZArith QArith Bool Lia Permutation.
Import ListNotations.

Close Scope Q_scope.
Local Open Scope string_scope.
Local Open Scope list_scope.

(** ** The data of the browser API *)

(** [chrome.downloads.DownloadItem], with the fields the manager reads.  An
    optional field that is absent is [None]. *)
Module DownloadItem.
Record t : Type := mk {
  id : Z;
  state : string;
  paused : bool;
  error : option string;
  bytesReceived : option Z;
  fileSize : option Z
}.
End DownloadItem.

(** [chrome.downloads.StringDelta] and [chrome.downloads.DownloadDelta]. *)
Module StringDelta.
Record t : Type := mk {
  previous : option string;
  current : option string
}.
End StringDelta.

Module DownloadDelta.
Record t : Type := mk {
  id : Z;
  state : option StringDelta.t
}.
End DownloadDelta.

(** Modelled from the spec: the enumeration [Message] of [@/common] is not
    among the sources; the spec lists its three kinds. *)
Inductive Message : Type := Ping | StatusCheck | PopupOpened.

Definition Message_eqb (a b : Message) : bool :=
  match a, b with
  | Ping, Ping | StatusCheck, StatusCheck | PopupOpened, PopupOpened => true
  | _, _ => false
  end.

(** Modelled from the spec: the enumeration [Color] of [./draw] is not among
    the sources; the spec lists its four values. *)
Inductive Color : Type := Normal | Paused | Complete | Error.

(** The filter handed to [search]: [{ id }] or [{ state }]. *)
Inductive Query : Type :=
| ById (id : Z)
| ByState (state : string).

(** Modelled from the spec: [search] of [@/common] is not among the sources;
    it returns the list of the records that satisfy the filter. *)
Definition satisfies (q : Query) (d : DownloadItem.t) : bool :=
  match q with
  | ById i => (DownloadItem.id d =? i)%Z
  | ByState s => DownloadItem.state d =? s
  end.

(** ** Numbers

    Byte counts are integers.  The only operation on them whose result need
    not be an integer is the division [num / den] of [drawIcon]; its result is
    the quotient, or one of the three special values the division of numbers
    has when the divisor is zero.  Rounding of the quotient is not modelled. *)
Inductive JsNumber : Type :=
| Finite (q : Q)
| PosInfinity
| NegInfinity
| NaN.

Definition js_div (num den : Z) : JsNumber :=
  if (den =? 0)%Z then
    if (num =? 0)%Z then NaN
    else if (0 <? num)%Z then PosInfinity else NegInfinity
  else Finite (inject_Z num / inject_Z den)%Q.

(** [!x] for an optional number: absent and zero are both falsy. *)
Definition falsy (x : option Z) : bool :=
  match x with
  | None => true
  | Some z => (z =? 0)%Z
  end.

(** [s.startsWith(p)]. *)
Definition startsWith (s p : string) : bool := String.prefix p s.

(** ** What the manager does to the outside *)

Inductive Effect : Type :=
| SetShelfEnabled (enabled : bool)
| SendMessage (m : Message)
| IconDraw (color : option Color) (fraction : option JsNumber)
| ConsoleLog (text : string)
| SetInterval (handle : nat) (ms : Z)
| ClearInterval (handle : nat)
| TypeError.

(** Size of a tick in milliseconds. *)
Definition TICK_MS : Z := 500.

(** The fields of [DownloadManager] ([timer], [unchecked]; [icon] has no
    state of its own here), the interval timers the platform currently runs,
    the next handle [setInterval] will return, and the calls made so far,
    oldest first.  An entry [None] of [unchecked] is the value [undefined]. *)
Record World : Type := mkWorld {
  timer : option nat;
  unchecked : list (option DownloadItem.t);
  intervals : list nat;
  next_handle : nat;
  log : list Effect
}.

Definition emit (e : Effect) (w : World) : World :=
  mkWorld (timer w) (unchecked w) (intervals w) (next_handle w) (log w ++ [e]).

Definition set_timer (t : option nat) (w : World) : World :=
  mkWorld t (unchecked w) (intervals w) (next_handle w) (log w).

Definition set_unchecked (u : list (option DownloadItem.t)) (w : World) : World :=
  mkWorld (timer w) u (intervals w) (next_handle w) (log w).

Definition sendMessage (m : Message) : World -> World := emit (SendMessage m).

Definition consoleLog (text : string) : World -> World := emit (ConsoleLog text).

(** [setInterval(f, ms)]: a new timer runs, its handle is returned. *)
Definition setInterval (ms : Z) (w : World) : nat * World :=
  let h := next_handle w in
  (h, emit (SetInterval h ms)
        (mkWorld (timer w) (unchecked w) (intervals w ++ [h]) (S h) (log w))).

(** [clearInterval(h)]: the timer of that handle runs no more. *)
Definition clearInterval (h : nat) (w : World) : World :=
  emit (ClearInterval h)
    (mkWorld (timer w) (unchecked w)
       (filter (fun h' => negb (Nat.eqb h' h)) (intervals w))
       (next_handle w) (log w)).

(** ** Suspended calls

    An [async] method that has reached its [await search(...)] waits for the
    answer; each of the four methods below has one such point. *)
Inductive Task : Type :=
| DrawIcon_await
| Tick_await
| Start_await
| OnChanged_await (id : Z).

Definition query (t : Task) : Query :=
  match t with
  | OnChanged_await i => ById i
  | DrawIcon_await | Tick_await | Start_await => ByState "in_progress"
  end.

(** ** The colour of the icon *)

(** [unchecked.some(p)] where [p] reads a property of its argument: on an
    entry that is [undefined] the read raises a TypeError ([None]); entries
    after the first one that satisfies [p] are not visited. *)
Fixpoint some (p : DownloadItem.t -> bool)
  (l : list (option DownloadItem.t)) : option bool :=
  match l with
  | [] => Some false
  | None :: _ => None
  | Some d :: l' => if p d then Some true else some p l'
  end.

(** [d => d.state == 'interrupted' && !d.error?.startsWith('USER_')]; with no
    [error] the optional call is [undefined], whose negation is [true]. *)
Definition erroredOut (d : DownloadItem.t) : bool :=
  (DownloadItem.state d =? "interrupted") &&
  negb match DownloadItem.error d with
       | Some e => startsWith e "USER_"
       | None => false
       end.

(** [c => c.state == 'complete']. *)
Definition successful (c : DownloadItem.t) : bool :=
  DownloadItem.state c =? "complete".

Definition color (unchecked : list (option DownloadItem.t))
  (activeDownloads : list DownloadItem.t) : option Color :=
  match some erroredOut unchecked with
  | None => None
  | Some true => Some Error
  | Some false =>
      if existsb DownloadItem.paused activeDownloads then Some Paused
      else match some successful unchecked with
           | None => None
           | Some true => Some Complete
           | Some false => Some Normal
           end
  end.

(** Modelled from the spec: [computePercentage] of [@/common] is not among
    the sources; the spec has it return the pair (received bytes, total
    bytes) of a record, [(0, 0)] for a record that has neither. *)
Definition computePercentage_spec (d : DownloadItem.t) : Z * Z :=
  (match DownloadItem.bytesReceived d with Some n => n | None => 0%Z end,
   match DownloadItem.fileSize d with Some n => n | None => 0%Z end).

(** Records and deltas for the examples. *)
Definition halfway : DownloadItem.t :=
  DownloadItem.mk 1 "in_progress" false None (Some 50%Z) (Some 100%Z).

Definition finished : DownloadItem.t :=
  DownloadItem.mk 2 "complete" false None (Some 100%Z) (Some 100%Z).

Definition justStarted : DownloadItem.t :=
  DownloadItem.mk 3 "in_progress" false None (Some 0%Z) (Some 100%Z).

Definition noBytes : DownloadItem.t :=
  DownloadItem.mk 4 "in_progress" false None None (Some 100%Z).

Definition resumed : DownloadItem.t :=
  DownloadItem.mk 5 "in_progress" false None (Some 10%Z) (Some 100%Z).

Definition canceled : DownloadItem.t :=
  DownloadItem.mk 6 "interrupted" false (Some "USER_CANCELED") (Some 10%Z) (Some 100%Z).

Definition failed : DownloadItem.t :=
  DownloadItem.mk 7 "interrupted" false (Some "NETWORK_FAILED") (Some 10%Z) (Some 100%Z).

Definition failedNoCode : DownloadItem.t :=
  DownloadItem.mk 8 "interrupted" false None (Some 10%Z) (Some 100%Z).

Definition pausedItem : DownloadItem.t :=
  DownloadItem.mk 9 "in_progress" true None (Some 10%Z) (Some 100%Z).

Definition stateDelta (id : Z) (current : string) : DownloadDelta.t :=
  DownloadDelta.mk id (Some (StringDelta.mk (Some "in_progress") (Some current))).

Section Manager.

(** [computePercentage] of [@/common] is not among the sources: the manager
    is parametrised by it. *)
Variable computePercentage : DownloadItem.t -> Z * Z.

(** ** The total percentage *)

(** The test of the reducer:
    [!cur || !cur.bytesReceived || (!cur.bytesReceived && !cur.fileSize)]. *)
Definition skipped (cur : option DownloadItem.t) : bool :=
  match cur with
  | None => true
  | Some d =>
      falsy (DownloadItem.bytesReceived d)
      || (falsy (DownloadItem.bytesReceived d) && falsy (DownloadItem.fileSize d))
  end.

Definition reducer (acc : Z * Z) (cur : option DownloadItem.t) : Z * Z :=
  if skipped cur then acc
  else match cur with
       | Some d =>
           let (num, den) := computePercentage d in
           (fst acc + num, snd acc + den)%Z
       | None => acc
       end.

(** [allDownloads.reduce(..., { num: 0, den: 0 })] over
    [[ ...this.unchecked, ...activeDownloads ]]. *)
Definition total (unchecked : list (option DownloadItem.t))
  (activeDownloads : list DownloadItem.t) : Z * Z :=
  fold_left reducer (unchecked ++ map Some activeDownloads) (0, 0)%Z.

(** ** The methods *)

(** [drawIcon] up to its [await]. *)
Definition drawIcon (w : World) : list Task * World := ([DrawIcon_await], w).

(** [drawIcon] from the answer of the query on.  The buffer is read now, not
    when [drawIcon] was called. *)
Definition drawIcon_resume (activeDownloads : list DownloadItem.t) (w : World)
  : list Task * World :=
  match color (unchecked w) activeDownloads with
  | None => ([], emit TypeError w)
  | Some c =>
      if (0 <? List.length activeDownloads)%nat then
        let t := total (unchecked w) activeDownloads in
        let num := fst t in
        let den := snd t in
        ([], emit (IconDraw (Some c) (Some (js_div num den))) w)
      else ([], emit (IconDraw (Some c) None) w)
  end.

Definition stop (w : World) : World :=
  match timer w with
  | None => w
  | Some h =>
      let w := consoleLog "Timer stopped" w in
      let w := clearInterval h w in
      set_timer None w
  end.

Definition tick (w : World) : list Task * World := ([Tick_await], w).

Definition tick_resume (activeDownloads : list DownloadItem.t) (w : World)
  : list Task * World :=
  if (0 <? List.length activeDownloads)%nat then
    let w := sendMessage Ping w in
    drawIcon w
  else ([], stop w).

Definition start (w : World) : list Task * World :=
  match timer w with
  | Some _ => ([], w)
  | None => ([Start_await], w)
  end.

Definition start_resume (activeDownloads : list DownloadItem.t) (w : World)
  : list Task * World :=
  if (List.length activeDownloads <=? 0)%nat then ([], w)
  else
    let w := consoleLog "Timer started" w in
    let (h, w) := setInterval TICK_MS w in
    let w := set_timer (Some h) w in
    tick w.

(** [onCreated]: [this.start()] is not awaited. *)
Definition onCreated (w : World) : list Task * World :=
  let w := sendMessage Ping w in
  start w.

(** [state == 'interrupted' || state == 'complete'] on [delta.state.current]. *)
Definition completed (current : option string) : bool :=
  match current with
  | Some state => (state =? "interrupted") || (state =? "complete")
  | None => false
  end.

(** [onChanged] up to its first [await]. *)
Definition onChanged (delta : DownloadDelta.t) (w : World) : list Task * World :=
  let w := sendMessage Ping w in
  match DownloadDelta.state delta with
  | Some st =>
      if completed (StringDelta.current st)
      then ([OnChanged_await (DownloadDelta.id delta)], w)
      else drawIcon w
  | None => drawIcon w
  end.

(** [onChanged] from the answer of [search({ id: delta.id })] on:
    [const [ item ] = ...] takes the first record, [undefined] when there is
    none. *)
Definition onChanged_resume (result : list DownloadItem.t) (w : World)
  : list Task * World :=
  let item := hd_error result in
  let w := set_unchecked (unchecked w ++ [item]) w in
  let w := sendMessage StatusCheck w in
  drawIcon w.

(** [onMessage]: [this.drawIcon()] is not awaited. *)
Definition onMessage (message : Message) (w : World) : list Task * World :=
  if Message_eqb message PopupOpened then
    let w := set_unchecked [] w in
    drawIcon w
  else ([], w).

Definition onErased (w : World) : list Task * World :=
  ([], sendMessage Ping w).

(** The state after [new DownloadManager()]. *)
Definition constructor : World :=
  let w := mkWorld None [] [] 0 [] in
  let w := emit (SetShelfEnabled false) w in
  emit (IconDraw None None) w.

(** ** The event loop *)

(** A suspended call goes on when its query is answered. *)
Definition resume (t : Task) (result : list DownloadItem.t) (w : World)
  : list Task * World :=
  match t with
  | DrawIcon_await => drawIcon_resume result w
  | Tick_await => tick_resume result w
  | Start_await => start_resume result w
  | OnChanged_await _ => onChanged_resume result w
  end.

(** The calls of one handler run one after the other with nothing in
    between: each answer of [answers] resumes the oldest suspended call. *)
Fixpoint settle (answers : list (list DownloadItem.t)) (ts : list Task)
  (w : World) : list Task * World :=
  match answers, ts with
  | result :: answers', t :: ts' =>
      let (new, w') := resume t result w in
      settle answers' (ts' ++ new) w'
  | _, _ => (ts, w)
  end.

(** The listeners the constructor registers. *)
Inductive Event : Type :=
| Created
| Changed (delta : DownloadDelta.t)
| Erased
| Received (message : Message).

Definition handle (e : Event) (w : World) : list Task * World :=
  match e with
  | Created => onCreated w
  | Changed delta => onChanged delta w
  | Erased => onErased w
  | Received message => onMessage message w
  end.

(** The manager and the calls that wait for an answer, oldest first. *)
Record System : Type := mkSystem {
  world : World;
  pending : list Task
}.

(** What the platform may do next: deliver an event, answer the query of the
    [n]-th suspended call, or fire an interval timer that is running. *)
Inductive Action : Type :=
| Dispatch (e : Event)
| Answer (n : nat) (result : list DownloadItem.t)
| Fire (handle : nat).

Definition spawn (s : System) (r : list Task * World) : System :=
  mkSystem (snd r) (pending s ++ fst r).

Definition exec (s : System) (a : Action) : System :=
  match a with
  | Dispatch e => spawn s (handle e (world s))
  | Answer n result =>
      match nth_error (pending s) n with
      | Some t =>
          if forallb (satisfies (query t)) result then
            spawn (mkSystem (world s) (firstn n (pending s) ++ skipn (S n) (pending s)))
                  (resume t result (world s))
          else s
      | None => s
      end
  | Fire h =>
      if existsb (Nat.eqb h) (intervals (world s))
      then spawn s (tick (world s))
      else s
  end.

Definition run (s : System) (schedule : list Action) : System :=
  fold_left exec schedule s.

(** [DownloadManager.Instance.start()]. *)
Definition initial : System := spawn (mkSystem constructor []) (start constructor).

(** A handler called and all its suspended calls answered in turn. *)
Definition answered (answers : list (list DownloadItem.t))
  (r : list Task * World) : list Task * World :=
  settle answers (fst r) (snd r).

(** ** The words of the specification *)

Definition begins_with (p s : string) : Prop := exists rest, s = (p ++ rest)%string.

(** An error code is present and begins with [USER_]. *)
Definition user_initiated (error : option string) : Prop :=
  exists e, error = Some e /\ begins_with "USER_" e.

Definition ErrorRule (unseen : list DownloadItem.t) : Prop :=
  exists d, In d unseen /\ DownloadItem.state d = "interrupted"
            /\ ~ user_initiated (DownloadItem.error d).

Definition PausedRule (active : list DownloadItem.t) : Prop :=
  exists a, In a active /\ DownloadItem.paused a = true.

Definition CompleteRule (unseen : list DownloadItem.t) : Prop :=
  exists d, In d unseen /\ DownloadItem.state d = "complete".

(** The entries of the buffer that are records. *)
Fixpoint records (l : list (option DownloadItem.t)) : list DownloadItem.t :=
  match l with
  | [] => []
  | Some d :: l' => d :: records l'
  | None :: l' => records l'
  end.






(** [Number.MAX_SAFE_INTEGER]: sums of non-negative integers that stay below
    it are exact in the arithmetic of the source, in whatever order they are
    added. *)
Definition MAX_SAFE_INTEGER : Z := 2 ^ 53 - 1.

Definition sum (l : list Z) : Z := fold_right Z.add 0%Z l.

(** The members of the union that the reducer counts. *)
Definition counted (unchecked : list (option DownloadItem.t))
  (activeDownloads : list DownloadItem.t) : list DownloadItem.t :=
  filter (fun d => negb (falsy (DownloadItem.bytesReceived d)))
         (records unchecked ++ activeDownloads).

(** The calls of [start] that wait for their answer. *)
Fixpoint starts (ts : list Task) : nat :=
  match ts with
  | [] => 0
  | Start_await :: ts' => S (starts ts')
  | _ :: ts' => starts ts'
  end.

(** No download is created while a call of [start] waits for its answer. *)
Definition start_apart (s : System) (a : Action) : bool :=
  match a with
  | Dispatch Created => Nat.eqb (starts (pending s)) 0
  | _ => true
  end.

Fixpoint starts_apart (s : System) (schedule : list Action) : bool :=
  match schedule with
  | [] => true
  | a :: rest => start_apart s a && starts_apart (exec s a) rest
  end.

(** The timers that run are the one whose handle [timer] holds. *)
Definition one_timer (w : World) : Prop :=
  intervals w = match timer w with Some h => [h] | None => [] end.

(** One timer at most, one waiting call of [start] at most, and none while
    the timer runs. *)
Definition calm (s : System) : Prop :=
  one_timer (world s) /\
  starts (pending s) <= 1 /\
  (starts (pending s) = 1 -> timer (world s) = None).

(** The handle held in [timer] is that of a timer that runs. *)
Definition timer_runs (w : World) : Prop :=
  match timer w with
  | Some h => In h (intervals w)
  | None => True
  end.

(** The answer to the query by id of [onChanged] holds a record. *)
Definition lookup_hit (s : System) (a : Action) : bool :=
  match a with
  | Answer n result =>
      match nth_error (pending s) n with
      | Some (OnChanged_await _) =>
          match result with [] => false | _ :: _ => true end
      | _ => true
      end
  | _ => true
  end.

Fixpoint lookups_hit (s : System) (schedule : list Action) : bool :=
  match schedule with
  | [] => true
  | a :: rest => lookup_hit s a && lookups_hit (exec s a) rest
  end.

(** An entry of the buffer that is a record. *)
Definition present (m : option DownloadItem.t) : bool :=
  match m with Some _ => true | None => false end.

(** No TypeError was raised and the buffer holds records only. *)
Definition sound (w : World) : Prop :=
  forallb present (unchecked w) = true /\ ~ In TypeError (log w).


(** ** Properties *)

Lemma begins_with_prefix (p s : string) :
  String.prefix p s = true <-> begins_with p s.
Proof.
  unfold begins_with. revert s.
  induction p as [|a p IH]; intros s; simpl.
  - split; [intros _; now exists s | now destruct s].
  - destruct s as [|b s]; simpl.
    + split; [discriminate | intros [rest H]; discriminate].
    + destruct (Ascii.ascii_dec a b) as [->|Hab].
      * rewrite IH. split; intros [rest H]; exists rest; congruence.
      * split; [discriminate | intros [rest H]; congruence].
Qed.

Lemma erroredOut_spec (d : DownloadItem.t) :
  erroredOut d = true <->
  DownloadItem.state d = "interrupted" /\ ~ user_initiated (DownloadItem.error d).
Proof.
  unfold erroredOut, user_initiated, startsWith.
  rewrite andb_true_iff, String.eqb_eq, negb_true_iff.
  destruct (DownloadItem.error d) as [e|].
  - split; intros [Hs He]; split; trivial.
    + intros [e' [[= <-] Hp]]. apply begins_with_prefix in Hp. congruence.
    + destruct (String.prefix "USER_" e) eqn:Hp; trivial.
      exfalso. apply He. exists e. split; trivial. now apply begins_with_prefix.
  - split; intros [Hs _]; split; trivial.
    intros [e [[=] _]].
Qed.

Lemma some_records (p : DownloadItem.t -> bool) (l : list DownloadItem.t) :
  some p (map Some l) = Some (existsb p l).
Proof.
  induction l as [|d l IH]; simpl; trivial.
  destruct (p d); simpl; trivial.
Qed.

Lemma ErrorRule_existsb (unseen : list DownloadItem.t) :
  existsb erroredOut unseen = true <-> ErrorRule unseen.
Proof.
  rewrite existsb_exists. unfold ErrorRule.
  split; intros [d [Hin H]]; exists d; split; trivial; now apply erroredOut_spec.
Qed.

Lemma PausedRule_existsb (active : list DownloadItem.t) :
  existsb DownloadItem.paused active = true <-> PausedRule active.
Proof. apply existsb_exists. Qed.

Lemma CompleteRule_existsb (unseen : list DownloadItem.t) :
  existsb successful unseen = true <-> CompleteRule unseen.
Proof.
  rewrite existsb_exists. unfold CompleteRule, successful.
  split; intros [d [Hin H]]; exists d; split; trivial; now apply String.eqb_eq.
Qed.

(** The colour as a cascade of tests, on a buffer of records. *)
Lemma color_records (unseen active : list DownloadItem.t) :
  color (map Some unseen) active =
  Some (if existsb erroredOut unseen then Error
        else if existsb DownloadItem.paused active then Paused
        else if existsb successful unseen then Complete
        else Normal).
Proof.
  unfold color. rewrite !some_records.
  destruct (existsb erroredOut unseen); trivial.
  destruct (existsb DownloadItem.paused active); trivial.
  destruct (existsb successful unseen); trivial.
Qed.

(** C1.  On every buffer of unseen records and every list of active
    downloads a colour is chosen, and by first match: Error exactly when some
    unseen record is interrupted with an error code that does not begin with
    [USER_] (a record without error code counts as such); otherwise Paused
    exactly when some active record is paused; otherwise Complete exactly
    when some unseen record is complete; otherwise Normal.  In particular,
    when every interrupted unseen record has an error code that begins with
    [USER_], the colour is not Error. *)
Theorem color_priority (unseen active : list DownloadItem.t) :
  let c := color (map Some unseen) active in
  (c = Some Error <-> ErrorRule unseen) /\
  (c = Some Paused <-> ~ ErrorRule unseen /\ PausedRule active) /\
  (c = Some Complete <->
     ~ ErrorRule unseen /\ ~ PausedRule active /\ CompleteRule unseen) /\
  (c = Some Normal <->
     ~ ErrorRule unseen /\ ~ PausedRule active /\ ~ CompleteRule unseen) /\
  ((forall d, In d unseen -> DownloadItem.state d = "interrupted" ->
              user_initiated (DownloadItem.error d)) ->
   c <> Some Error).
Proof.
  cbv zeta. rewrite color_records.
  rewrite <- ErrorRule_existsb, <- PausedRule_existsb, <- CompleteRule_existsb.
  assert (Huser : (forall d, In d unseen -> DownloadItem.state d = "interrupted" ->
                             user_initiated (DownloadItem.error d)) ->
                  existsb erroredOut unseen = false).
  { intros H. destruct (existsb erroredOut unseen) eqn:E; trivial.
    apply ErrorRule_existsb in E. destruct E as [d [Hin [Hs Hn]]].
    exfalso. apply Hn. now apply H. }
  destruct (existsb erroredOut unseen) eqn:E1;
    destruct (existsb DownloadItem.paused active) eqn:E2;
    destruct (existsb successful unseen) eqn:E3;
    repeat split; try discriminate; try congruence; try tauto;
    try (intros H; specialize (Huser H); discriminate);
    intuition discriminate.
Qed.

Lemma some_false_records (p : DownloadItem.t -> bool)
  (l : list (option DownloadItem.t)) :
  some p l = Some false -> map Some (records l) = l.
Proof.
  induction l as [|[d|] l IH]; simpl; trivial; try discriminate.
  destruct (p d); [discriminate|]. intros H. now rewrite IH.
Qed.

Lemma some_true_records (p : DownloadItem.t -> bool)
  (l : list (option DownloadItem.t)) :
  some p l = Some true -> existsb p (records l) = true.
Proof.
  induction l as [|[d|] l IH]; simpl; try discriminate.
  destruct (p d); simpl; auto.
Qed.

(** On a buffer with entries that are not records the colour, when one is
    chosen, is the colour of its records. *)
Lemma color_defined (unchecked : list (option DownloadItem.t))
  (active : list DownloadItem.t) (c : Color) :
  color unchecked active = Some c ->
  color (map Some (records unchecked)) active = Some c.
Proof.
  unfold color at 1.
  destruct (some erroredOut unchecked) as [[|]|] eqn:E; try discriminate.
  - intros [= <-]. now rewrite color_records, (some_true_records _ _ E).
  - rewrite (some_false_records _ _ E). unfold color. now rewrite E.
Qed.

Lemma skipped_falsy (d : DownloadItem.t) :
  skipped (Some d) = falsy (DownloadItem.bytesReceived d).
Proof. simpl. now destruct (falsy (DownloadItem.bytesReceived d)). Qed.

Lemma skipped_spec (m : option DownloadItem.t) :
  skipped m = true <->
  m = None \/
  exists d, m = Some d /\
            (DownloadItem.bytesReceived d = None
             \/ DownloadItem.bytesReceived d = Some 0%Z).
Proof.
  destruct m as [d|].
  - rewrite skipped_falsy. unfold falsy.
    destruct (DownloadItem.bytesReceived d) as [z|] eqn:E.
    + rewrite Z.eqb_eq. split.
      * intros ->. right. exists d. rewrite E. auto.
      * intros [[=]|[d' [[= <-] [H|H]]]]; congruence.
    + split; trivial. intros _. right. exists d. rewrite E. auto.
  - simpl. split; auto.
Qed.

Lemma records_app (l : list (option DownloadItem.t)) (a : list DownloadItem.t) :
  records (l ++ map Some a) = records l ++ a.
Proof.
  induction l as [|[d|] l IH]; simpl.
  - induction a as [|x a IHa]; simpl; congruence.
  - now rewrite IH.
  - exact IH.
Qed.

Lemma fold_reducer (l : list (option DownloadItem.t)) (acc : Z * Z) :
  let cs := filter (fun d => negb (falsy (DownloadItem.bytesReceived d))) (records l) in
  fold_left reducer l acc =
  (fst acc + sum (map (fun d => fst (computePercentage d)) cs),
   snd acc + sum (map (fun d => snd (computePercentage d)) cs))%Z.
Proof.
  cbv zeta. revert acc.
  induction l as [|[d|] l IH]; intros [n m]; cbn [fold_left records].
  - unfold sum. simpl. f_equal; lia.
  - rewrite IH. unfold reducer. rewrite skipped_falsy. cbn [filter].
    destruct (falsy (DownloadItem.bytesReceived d)); cbn [negb]; trivial.
    destruct (computePercentage d) as [num den] eqn:E. unfold sum.
    cbn [map fold_right]. rewrite E. cbn [fst snd]. f_equal; lia.
  - rewrite IH. reflexivity.
Qed.

Lemma fold_reducer_skipped (l : list (option DownloadItem.t)) (acc : Z * Z) :
  forallb skipped l = true -> fold_left reducer l acc = acc.
Proof.
  induction l as [|m l IH]; simpl; trivial.
  intros H. apply andb_true_iff in H. destruct H as [Hm Hl].
  unfold reducer at 2. rewrite Hm. auto.
Qed.

(** C2, as the code has it.  A member of the union of the buffer and the
    active list is left out of both sums exactly when the entry is no record
    or its [bytesReceived] is absent or zero, whatever its [fileSize]; the
    sums are those of the pairs [computePercentage] gives for the other
    members. *)
Theorem total_counted (unchecked : list (option DownloadItem.t))
  (activeDownloads : list DownloadItem.t) :
  (forall m, skipped m = true <->
             m = None \/
             exists d, m = Some d /\
                       (DownloadItem.bytesReceived d = None
                        \/ DownloadItem.bytesReceived d = Some 0%Z)) /\
  total unchecked activeDownloads =
  (sum (map (fun d => fst (computePercentage d)) (counted unchecked activeDownloads)),
   sum (map (fun d => snd (computePercentage d)) (counted unchecked activeDownloads))).
Proof.
  split; [exact skipped_spec|].
  unfold total, counted. rewrite fold_reducer, records_app. reflexivity.
Qed.

(** C4, as the code has it.  When the active list is not empty and every
    member of the union is left out, both sums are zero and the redraw
    carries their quotient [0 / 0], the value NaN: no other value is put in
    its place and the fraction is not omitted. *)
Theorem all_skipped_NaN (w : World) (activeDownloads : list DownloadItem.t)
  (c : Color) :
  activeDownloads <> [] ->
  forallb skipped (unchecked w ++ map Some activeDownloads) = true ->
  color (unchecked w) activeDownloads = Some c ->
  total (unchecked w) activeDownloads = (0, 0)%Z /\
  answered [activeDownloads] (drawIcon w) =
  ([], emit (IconDraw (Some c) (Some NaN)) w).
Proof.
  intros Hne Hall Hc.
  assert (Ht : total (unchecked w) activeDownloads = (0, 0)%Z)
    by (unfold total; now apply fold_reducer_skipped).
  split; trivial.
  unfold answered, drawIcon; cbn [fst snd settle resume app].
  unfold drawIcon_resume. rewrite Hc, Ht.
  destruct activeDownloads; [congruence|]. reflexivity.
Qed.

(** C10.  When the query of a redraw finds no active download, the redraw
    carries no fraction, whatever the buffer holds; on a buffer of records it
    carries their colour, and on the empty buffer it carries Normal. *)
Theorem idle_redraw (w : World) (unseen : list DownloadItem.t) :
  answered [[]] (drawIcon w) =
    ([], emit match color (unchecked w) [] with
              | Some c => IconDraw (Some c) None
              | None => TypeError
              end w) /\
  (exists c, color (map Some unseen) [] = Some c /\
             answered [[]] (drawIcon (set_unchecked (map Some unseen) w)) =
             ([], emit (IconDraw (Some c) None) (set_unchecked (map Some unseen) w))) /\
  answered [[]] (drawIcon (set_unchecked [] w)) =
    ([], emit (IconDraw (Some Normal) None) (set_unchecked [] w)).
Proof.
  repeat split.
  - unfold answered, drawIcon; cbn [fst snd settle resume app].
    unfold drawIcon_resume. now destruct (color (unchecked w) []).
  - rewrite color_records. eexists. split; [reflexivity|].
    unfold answered, drawIcon; cbn [fst snd settle resume app].
    unfold drawIcon_resume. cbn [unchecked set_unchecked].
    now rewrite color_records.
Qed.

(** C9.  On PopupOpened the buffer is emptied and the icon is redrawn, in a
    colour that no record seen before has a part in, and so is every later
    redraw while the buffer stays as it is; the timer is not touched.  On any
    other message nothing changes and nothing is drawn. *)
Theorem onMessage_behaviour (message : Message) (w : World)
  (activeDownloads : list DownloadItem.t) :
  match message with
  | PopupOpened =>
      let r := answered [activeDownloads] (onMessage message w) in
      fst r = [] /\
      unchecked (snd r) = [] /\
      timer (snd r) = timer w /\
      intervals (snd r) = intervals w /\
      (exists c fraction,
          color [] activeDownloads = Some c /\
          log (snd r) = log w ++ [IconDraw (Some c) fraction]) /\
      (forall later, color (unchecked (snd r)) later = color [] later)
  | Ping | StatusCheck => onMessage message w = ([], w)
  end.
Proof.
  destruct message; try reflexivity.
  unfold answered, onMessage, drawIcon; cbn [Message_eqb fst snd settle resume app].
  unfold drawIcon_resume. cbn [unchecked set_unchecked].
  change (color [] activeDownloads) with
    (if existsb DownloadItem.paused activeDownloads then Some Paused else Some Normal).
  destruct (existsb DownloadItem.paused activeDownloads);
    destruct (0 <? List.length activeDownloads)%nat;
    try destruct (total [] activeDownloads);
    cbn; repeat split; eauto.
Qed.

(** *** The buffer across the handlers *)










(** *** The change handler when all goes well *)

Lemma onChanged_completed (delta : DownloadDelta.t) (st : StringDelta.t)
  (w : World) (item : DownloadItem.t) (others active : list DownloadItem.t)
  (c : Color) :
  DownloadDelta.state delta = Some st ->
  completed (StringDelta.current st) = true ->
  color (unchecked w ++ [Some item]) active = Some c ->
  let r := answered [item :: others; active] (onChanged delta w) in
  fst r = [] /\
  unchecked (snd r) = unchecked w ++ [Some item] /\
  exists fraction,
    log (snd r) =
    log w ++ [SendMessage Ping; SendMessage StatusCheck; IconDraw (Some c) fraction].
Proof.
  intros Hst Hc Hcol. unfold answered, onChanged. rewrite Hst, Hc.
  cbn [fst snd settle resume app onChanged_resume drawIcon hd_error].
  unfold drawIcon_resume.
  cbn [unchecked set_unchecked sendMessage emit]. rewrite Hcol.
  destruct (0 <? List.length active)%nat;
    [destruct (total (unchecked w ++ [Some item]) active)|];
    unfold sendMessage, set_unchecked, emit;
    cbn [fst snd unchecked log]; rewrite <- ?app_assoc;
    repeat split; eexists; reflexivity.
Qed.

Lemma onChanged_other (delta : DownloadDelta.t) (w : World)
  (active : list DownloadItem.t) (c : Color) :
  match DownloadDelta.state delta with
  | Some st => completed (StringDelta.current st) = false
  | None => True
  end ->
  color (unchecked w) active = Some c ->
  let r := answered [active] (onChanged delta w) in
  fst r = [] /\
  unchecked (snd r) = unchecked w /\
  exists fraction,
    log (snd r) = log w ++ [SendMessage Ping; IconDraw (Some c) fraction].
Proof.
  intros Hst Hcol. unfold answered.
  assert (E : onChanged delta w = drawIcon (sendMessage Ping w)).
  { unfold onChanged. destruct (DownloadDelta.state delta); trivial. now rewrite Hst. }
  rewrite E. cbn [fst snd settle resume app drawIcon].
  unfold drawIcon_resume. cbn [unchecked sendMessage emit]. rewrite Hcol.
  destruct (0 <? List.length active)%nat;
    [destruct (total (unchecked w) active)|];
    unfold sendMessage, set_unchecked, emit;
    cbn [fst snd unchecked log]; rewrite <- ?app_assoc;
    repeat split; eexists; reflexivity.
Qed.

(** *** The timer when calls do not overlap *)

Lemma start_running (w : World) (h : nat) :
  timer w = Some h -> start w = ([], w).
Proof. unfold start. now intros ->. Qed.

Lemma start_idle (w : World) (active : list DownloadItem.t) :
  timer w = None ->
  let r := answered [active] (start w) in
  match active with
  | [] => r = ([], w)
  | _ :: _ =>
      fst r = [Tick_await] /\
      timer (snd r) = Some (next_handle w) /\
      intervals (snd r) = intervals w ++ [next_handle w]
  end.
Proof.
  intros Ht. unfold answered, start. rewrite Ht.
  destruct active; cbn; auto.
Qed.

Lemma tick_idle (w : World) (h : nat) :
  timer w = Some h ->
  intervals w = [h] ->
  let r := answered [[]] (tick w) in
  fst r = [] /\ timer (snd r) = None /\ intervals (snd r) = [].
Proof.
  intros Ht Hi. unfold answered, tick.
  cbn [fst snd settle resume app]. unfold tick_resume. cbn [List.length Nat.ltb Nat.leb].
  unfold stop. rewrite Ht. cbn. rewrite Hi. cbn. now rewrite Nat.eqb_refl.
Qed.

Lemma tick_active (w : World) (d : DownloadItem.t)
  (active later : list DownloadItem.t) (c : Color) :
  color (unchecked w) later = Some c ->
  let r := answered [d :: active; later] (tick w) in
  fst r = [] /\
  timer (snd r) = timer w /\
  intervals (snd r) = intervals w /\
  exists fraction,
    log (snd r) = log w ++ [SendMessage Ping; IconDraw (Some c) fraction].
Proof.
  intros Hcol. unfold answered, tick.
  cbn [fst snd settle resume app tick_resume List.length Nat.ltb Nat.leb drawIcon].
  unfold drawIcon_resume. cbn [unchecked sendMessage emit]. rewrite Hcol.
  destruct (0 <? List.length later)%nat;
    [destruct (total (unchecked w) later)|];
    unfold sendMessage, emit;
    cbn [fst snd timer intervals log]; rewrite <- ?app_assoc;
    repeat split; eexists; reflexivity.
Qed.

(** *** Where the code leaves the specification *)

(** C3.  A change to a terminal state whose query by id finds no record: the
    handler appends [undefined] to the buffer and asks for the status check,
    and its redraw then fails on that entry with a TypeError instead of
    drawing. *)
Theorem onChanged_lookup_miss (w : World) (i : Z) (interrupted : bool)
  (activeDownloads : list DownloadItem.t) :
  let delta := stateDelta i (if interrupted then "interrupted" else "complete") in
  let r := answered [[]; activeDownloads] (onChanged delta w) in
  let r0 := answered [[]; activeDownloads] (onChanged delta (set_unchecked [] w)) in
  unchecked (snd r) = unchecked w ++ [None] /\
  unchecked (snd r0) = [None] /\
  log (snd r0) = log w ++ [SendMessage Ping; SendMessage StatusCheck; TypeError].
Proof.
  destruct interrupted; cbv zeta; unfold answered, onChanged, stateDelta;
    cbn [DownloadDelta.state StringDelta.current completed String.eqb
         Ascii.eqb Bool.eqb orb fst snd settle resume app onChanged_resume
         drawIcon hd_error];
    unfold drawIcon_resume, sendMessage, set_unchecked, emit;
    cbn [unchecked log].
  all: repeat split.
  all: try (destruct (color (unchecked w ++ [None]) activeDownloads);
            [destruct (0 <? List.length activeDownloads)%nat;
             [destruct (total (unchecked w ++ [None]) activeDownloads)|]|];
            reflexivity).
  all: cbn; now rewrite <- !app_assoc.
Qed.

(** C5.  After a start with nothing active, a change to [complete] whose
    query by id finds no record is not followed by a redraw; nor is the next
    change, one of a download in progress. *)
Theorem onChanged_no_redraw :
  let s := run initial
             [Answer 0 []; Dispatch (Changed (stateDelta 2 "complete"));
              Answer 0 []; Answer 0 []] in
  let s' := run s [Dispatch (Changed (DownloadDelta.mk 1 None));
                   Answer 0 [halfway]] in
  pending s = [] /\
  log (world s) =
    [SetShelfEnabled false; IconDraw None None;
     SendMessage Ping; SendMessage StatusCheck; TypeError] /\
  pending s' = [] /\
  log (world s') = log (world s) ++ [SendMessage Ping; TypeError].
Proof. repeat split. Qed.

(** C7.  Two downloads created one after the other while the timer is idle:
    both calls of [start] pass the test of [timer] before either query is
    answered, and each starts a timer.  Two timers run; when a tick finds
    nothing active, [stop] clears the one whose handle is held and the other
    keeps running. *)
Theorem overlapping_start_two_timers :
  let s := run initial
             [Answer 0 []; Dispatch Created; Dispatch Created;
              Answer 0 [halfway]; Answer 0 [halfway]] in
  let s' := run s [Answer 0 [halfway]; Answer 0 [halfway];
                   Answer 0 [halfway]; Answer 0 [halfway];
                   Fire 1; Answer 0 []] in
  timer (world s) = Some 1 /\
  intervals (world s) = [0; 1] /\
  pending s' = [] /\
  timer (world s') = None /\
  intervals (world s') = [0].
Proof. repeat split. Qed.

(** C8.  Two ticks that do not do what the claim says.  With an [undefined]
    entry in the buffer (a query by id that found nothing), a tick that finds
    a download active sends the ping and draws nothing.  With two timers
    running (overlapping calls of [start]), the tick that finds nothing
    active leaves a timer that fires again with no new start. *)
Theorem tick_failures :
  let s := run initial
             [Answer 0 [halfway]; Answer 0 [halfway]; Answer 0 [halfway];
              Dispatch (Changed (stateDelta 2 "complete"));
              Answer 0 []; Answer 0 [halfway]] in
  let s' := run s [Fire 0; Answer 0 [halfway]; Answer 0 [halfway]] in
  let t := run initial
             [Answer 0 []; Dispatch Created; Dispatch Created;
              Answer 0 [halfway]; Answer 0 [halfway];
              Answer 0 [halfway]; Answer 0 [halfway];
              Answer 0 [halfway]; Answer 0 [halfway]] in
  let t' := run t [Fire 1; Answer 0 []] in
  (unchecked (world s) = [None] /\
   timer (world s) = Some 0 /\
   pending s' = [] /\
   timer (world s') = Some 0 /\
   log (world s') = log (world s) ++ [SendMessage Ping; TypeError]) /\
  (timer (world t) = Some 1 /\
   pending t = [] /\
   timer (world t') = None /\
   pending t' = [] /\
   pending (exec t' (Fire 0)) = [Tick_await]).
Proof. repeat split. Qed.

(** ** Further properties of the code *)

(** *** The colour *)

Lemma existsb_members {A : Type} (p : A -> bool) (l l' : list A) :
  (forall x, In x l <-> In x l') -> existsb p l = existsb p l'.
Proof.
  intros H. apply eq_iff_eq_true. rewrite !existsb_exists.
  split; intros [x [Hin Hp]]; exists x; split; trivial; now apply H.
Qed.

(** X1.  The colour depends on which records are in the buffer and which
    downloads are active, not on their order nor on how often one occurs. *)
Theorem color_members (unseen unseen' active active' : list DownloadItem.t) :
  (forall d, In d unseen <-> In d unseen') ->
  (forall d, In d active <-> In d active') ->
  color (map Some unseen) active = color (map Some unseen') active'.
Proof.
  intros Hu Ha. rewrite !color_records.
  rewrite (existsb_members erroredOut _ _ Hu), (existsb_members successful _ _ Hu).
  now rewrite (existsb_members DownloadItem.paused _ _ Ha).
Qed.

Lemma some_true_app (p : DownloadItem.t -> bool)
  (l l' : list (option DownloadItem.t)) :
  some p l = Some true -> some p (l ++ l') = Some true.
Proof.
  induction l as [|[d|] l IH]; simpl; try discriminate.
  destruct (p d); auto.
Qed.

(** X2.  Once the colour is Error it stays Error whatever is appended to the
    buffer, an [undefined] entry included, and whatever is active. *)
Theorem error_stays (unchecked later : list (option DownloadItem.t))
  (active active' : list DownloadItem.t) :
  color unchecked active = Some Error ->
  color (unchecked ++ later) active' = Some Error.
Proof.
  unfold color.
  destruct (some erroredOut unchecked) as [[|]|] eqn:E.
  - intros _. now rewrite (some_true_app _ _ later E).
  - destruct (existsb DownloadItem.paused active); [discriminate|].
    now destruct (some successful unchecked) as [[|]|].
  - discriminate.
Qed.

Lemma some_raises (p : DownloadItem.t -> bool)
  (l : list (option DownloadItem.t)) :
  some p l = None <->
  exists before after,
    l = map Some before ++ None :: after /\ existsb p before = false.
Proof.
  induction l as [|[d|] l IH]; simpl.
  - split; [discriminate|]. intros [[|b before] [after [H _]]]; discriminate.
  - destruct (p d) eqn:Ep.
    + split; [discriminate|].
      intros [[|b before] [after [H Hb]]]; [discriminate|].
      simpl in H, Hb. injection H as <- _. now rewrite Ep in Hb.
    + rewrite IH. split.
      * intros [before [after [-> Hb]]]. exists (d :: before), after.
        simpl. now rewrite Ep.
      * intros [[|b before] [after [H Hb]]]; [discriminate|].
        simpl in H, Hb. injection H as <- ->. rewrite Ep in Hb.
        now exists before, after.
  - split; trivial. intros _. now exists [], l.
Qed.

(** X3.  Choosing the colour raises the TypeError exactly when the buffer has
    an [undefined] entry with no failed record before it. *)
Theorem color_raises (unchecked : list (option DownloadItem.t))
  (active : list DownloadItem.t) :
  color unchecked active = None <->
  exists before after,
    unchecked = map Some before ++ None :: after
    /\ existsb erroredOut before = false.
Proof.
  rewrite <- some_raises. unfold color.
  destruct (some erroredOut unchecked) as [[|]|] eqn:E.
  - split; discriminate.
  - split; [|discriminate].
    destruct (existsb DownloadItem.paused active); [discriminate|].
    rewrite <- (some_false_records _ _ E), some_records.
    now destruct (existsb successful (records unchecked)).
  - split; trivial.
Qed.

(** *** The fraction *)

(** X4.  A redraw whose query finds a download active carries the chosen
    colour and the quotient of the two sums over the members that are
    counted. *)
Theorem active_redraw (w : World) (d : DownloadItem.t)
  (active : list DownloadItem.t) (c : Color) :
  color (unchecked w) (d :: active) = Some c ->
  let cs := counted (unchecked w) (d :: active) in
  answered [d :: active] (drawIcon w) =
  ([], emit (IconDraw (Some c)
               (Some (js_div (sum (map (fun x => fst (computePercentage x)) cs))
                             (sum (map (fun x => snd (computePercentage x)) cs)))))
         w).
Proof.
  intros Hc. cbv zeta.
  unfold answered, drawIcon; cbn [fst snd settle resume app].
  unfold drawIcon_resume. rewrite Hc. cbn [List.length Nat.ltb Nat.leb].
  unfold total, counted. rewrite fold_reducer, records_app. reflexivity.
Qed.

Lemma sum_bounds (cs : list DownloadItem.t) :
  (forall x, In x cs ->
             (0 <= fst (computePercentage x) <= snd (computePercentage x))%Z) ->
  (0 <= sum (map (fun x => fst (computePercentage x)) cs)
     <= sum (map (fun x => snd (computePercentage x)) cs))%Z.
Proof.
  induction cs as [|x cs IH]; intros H; unfold sum; cbn [map fold_right].
  - lia.
  - assert (Hx := H x (or_introl eq_refl)).
    assert (Hcs : forall y, In y cs ->
              (0 <= fst (computePercentage y) <= snd (computePercentage y))%Z)
      by (intros y Hy; apply H; now right).
    specialize (IH Hcs). unfold sum in IH. lia.
Qed.

Lemma js_div_unit (num den : Z) :
  (0 <= num <= den)%Z -> (0 < den)%Z ->
  exists q, js_div num den = Finite q /\ (0 <= q)%Q /\ (q <= 1)%Q.
Proof.
  intros [H0 H1] Hden. unfold js_div.
  destruct (den =? 0)%Z eqn:E; [apply Z.eqb_eq in E; lia|].
  eexists. split; [reflexivity|].
  assert (Hq : (0 < inject_Z den)%Q)
    by (change (inject_Z 0 < inject_Z den)%Q; now rewrite <- Zlt_Qlt).
  split.
  - apply Qle_shift_div_l; trivial. rewrite Qmult_0_l.
    change (inject_Z 0 <= inject_Z num)%Q. now rewrite <- Zle_Qle.
  - apply Qle_shift_div_r; trivial. rewrite Qmult_1_l.
    now rewrite <- Zle_Qle.
Qed.

(** X5.  When each counted member gives a pair with
    [0 <= num <= den] and the summed denominator is positive, the fraction of
    the redraw is a number between 0 and 1. *)
Theorem fraction_in_unit (w : World) (d : DownloadItem.t)
  (active : list DownloadItem.t) (c : Color) :
  color (unchecked w) (d :: active) = Some c ->
  (forall x, In x (counted (unchecked w) (d :: active)) ->
             (0 <= fst (computePercentage x) <= snd (computePercentage x))%Z) ->
  (0 < snd (total (unchecked w) (d :: active)))%Z ->
  exists q,
    answered [d :: active] (drawIcon w) =
    ([], emit (IconDraw (Some c) (Some (Finite q))) w)
    /\ (0 <= q)%Q /\ (q <= 1)%Q.
Proof.
  intros Hc Hb Hden.
  assert (Ht : total (unchecked w) (d :: active) =
               (sum (map (fun x => fst (computePercentage x))
                         (counted (unchecked w) (d :: active))),
                sum (map (fun x => snd (computePercentage x))
                         (counted (unchecked w) (d :: active)))))
    by (unfold total, counted; now rewrite fold_reducer, records_app).
  rewrite Ht in Hden. cbn [snd] in Hden.
  destruct (js_div_unit _ _ (sum_bounds _ Hb) Hden) as [q [Hq [Hq0 Hq1]]].
  exists q. split; [|split; trivial].
  unfold answered, drawIcon; cbn [fst snd settle resume app].
  unfold drawIcon_resume. rewrite Hc. cbn [List.length Nat.ltb Nat.leb].
  rewrite Ht. cbn [fst snd]. now rewrite Hq.
Qed.

Lemma reducer_swap (acc : Z * Z) (x y : option DownloadItem.t) :
  reducer (reducer acc x) y = reducer (reducer acc y) x.
Proof.
  unfold reducer.
  destruct (skipped x) eqn:Ex, (skipped y) eqn:Ey; trivial.
  destruct x as [dx|], y as [dy|]; try discriminate.
  destruct (computePercentage dx) as [nx mx], (computePercentage dy) as [ny my].
  cbn [fst snd]. f_equal; lia.
Qed.

Lemma fold_reducer_perm (l l' : list (option DownloadItem.t)) :
  Permutation l l' ->
  forall acc, fold_left reducer l acc = fold_left reducer l' acc.
Proof.
  induction 1 as [|x l l' _ IH|x y l|l l' l'' _ IH1 _ IH2]; intros acc;
    cbn [fold_left]; trivial.
  - now rewrite reducer_swap.
  - now rewrite IH1.
Qed.

Lemma sum_nonneg (l : list Z) :
  (forall z, In z l -> (0 <= z)%Z) -> (0 <= sum l)%Z.
Proof.
  induction l as [|z l IH]; intros H; unfold sum; cbn [fold_right]; [lia|].
  assert (0 <= z)%Z by (apply H; now left).
  assert (0 <= sum l)%Z by (apply IH; intros y Hy; apply H; now right).
  unfold sum in *. lia.
Qed.

(** X6.  When every counted member gives a pair of non-negative integers and
    the two sums stay within [MAX_SAFE_INTEGER], where the additions of the
    source are exact, the sums depend neither on the order of the buffer nor
    on the order of the active list, and stay within that range. *)
Theorem total_order (unchecked unchecked' : list (option DownloadItem.t))
  (active active' : list DownloadItem.t) :
  Permutation unchecked unchecked' ->
  Permutation active active' ->
  (forall x, In x (counted unchecked active) ->
             (0 <= fst (computePercentage x))%Z
             /\ (0 <= snd (computePercentage x))%Z) ->
  (fst (total unchecked active) <= MAX_SAFE_INTEGER)%Z ->
  (snd (total unchecked active) <= MAX_SAFE_INTEGER)%Z ->
  total unchecked active = total unchecked' active' /\
  (0 <= fst (total unchecked' active') <= MAX_SAFE_INTEGER)%Z /\
  (0 <= snd (total unchecked' active') <= MAX_SAFE_INTEGER)%Z.
Proof.
  intros Hu Ha Hb Hn Hd.
  assert (E : total unchecked active = total unchecked' active').
  { unfold total. apply fold_reducer_perm.
    apply Permutation_app; trivial. now apply Permutation_map. }
  rewrite <- E. split; trivial.
  assert (Ht : total unchecked active =
               (sum (map (fun x => fst (computePercentage x))
                         (counted unchecked active)),
                sum (map (fun x => snd (computePercentage x))
                         (counted unchecked active))))
    by (unfold total, counted; now rewrite fold_reducer, records_app).
  rewrite Ht in *. cbn [fst snd] in *.
  split; (split; trivial); apply sum_nonneg; intros z Hz;
    apply in_map_iff in Hz; destruct Hz as [x [<- Hx]]; now apply Hb.
Qed.

(** *** The timer *)

Lemma stop_timer (w : World) : timer (stop w) = None.
Proof. unfold stop. now destruct (timer w) eqn:E. Qed.

(** X7.  Stopping a stopped timer does nothing: a second [stop] neither logs
    nor clears anything, and so does a tick that finds nothing active after
    the timer was stopped. *)
Theorem stop_idempotent (w : World) :
  timer (stop w) = None /\
  stop (stop w) = stop w /\
  answered [[]] (tick (stop w)) = ([], stop w).
Proof.
  assert (H : timer (stop w) = None) by apply stop_timer.
  assert (H2 : stop (stop w) = stop w)
    by (unfold stop at 1; now rewrite H).
  repeat split; trivial.
  unfold answered, tick; cbn [fst snd settle resume app].
  unfold tick_resume. cbn [List.length Nat.ltb Nat.leb]. now rewrite H2.
Qed.

Lemma handle_timer (e : Event) (w : World) :
  timer (snd (handle e w)) = timer w /\
  intervals (snd (handle e w)) = intervals w.
Proof.
  destruct e as [|delta| |[]]; try (split; reflexivity).
  - unfold handle, onCreated, start.
    destruct (timer (sendMessage Ping w)); split; reflexivity.
  - unfold handle, onChanged.
    destruct (DownloadDelta.state delta) as [st|]; [|split; reflexivity].
    destruct (completed (StringDelta.current st)); split; reflexivity.
Qed.

(** X8.  Delivering an event or firing a timer never starts or stops a
    timer.  Of the answers, only a non-empty one to the query of [start]
    starts a timer, whose handle is then held, and only an empty one to the
    query of a tick stops the timer held; the answers to the queries of
    [drawIcon] and of [onChanged] leave the timers as they are. *)
Theorem timer_changes_on_answer_only (s : System) (a : Action) :
  let w := world s in
  let w' := world (exec s a) in
  let same := timer w' = timer w /\ intervals w' = intervals w in
  match a with
  | Dispatch _ | Fire _ => same
  | Answer n result =>
      match nth_error (pending s) n, result with
      | Some Start_await, _ :: _ =>
          if forallb (satisfies (ByState "in_progress")) result
          then timer w' = Some (next_handle w)
               /\ intervals w' = intervals w ++ [next_handle w]
          else same
      | Some Tick_await, [] =>
          timer w' = None /\
          intervals w' =
          match timer w with
          | Some h => filter (fun h' => negb (Nat.eqb h' h)) (intervals w)
          | None => intervals w
          end
      | _, _ => same
      end
  end.
Proof.
  cbv zeta. destruct a as [e|n result|h]; cbn [exec].
  - unfold spawn; cbn [world]. apply handle_timer.
  - destruct (nth_error (pending s) n) as [t|];
      [|destruct result; split; reflexivity].
    destruct t; cbn [query].
    + destruct (forallb (satisfies (ByState "in_progress")) result);
        unfold spawn; cbn [world resume]; [|destruct result; now split].
      unfold drawIcon_resume.
      destruct (color (unchecked (world s)) result);
        [destruct (0 <? List.length result)%nat|];
        destruct result; split; reflexivity.
    + destruct result as [|d result].
      * unfold spawn; cbn [forallb world resume tick_resume List.length
                             Nat.ltb Nat.leb snd].
        split; [apply stop_timer|].
        unfold stop. now destruct (timer (world s)).
      * destruct (forallb (satisfies (ByState "in_progress")) (d :: result));
          split; reflexivity.
    + destruct result as [|d result].
      * split; reflexivity.
      * destruct (forallb (satisfies (ByState "in_progress")) (d :: result));
          split; reflexivity.
    + destruct (forallb (satisfies (ById id)) result);
        destruct result; split; reflexivity.
  - destruct (existsb (Nat.eqb h) (intervals (world s))); split; reflexivity.
Qed.

Lemma resume_timer_runs (t : Task) (result : list DownloadItem.t) (w : World) :
  timer_runs w -> timer_runs (snd (resume t result w)).
Proof.
  unfold timer_runs. intros H.
  destruct t; cbn [resume].
  - unfold drawIcon_resume.
    destruct (color (unchecked w) result); [|exact H].
    destruct (0 <? List.length result)%nat; exact H.
  - unfold tick_resume.
    destruct (0 <? List.length result)%nat; [exact H|].
    cbn [snd]. now rewrite stop_timer.
  - unfold start_resume.
    destruct (List.length result <=? 0)%nat; [exact H|].
    cbn. apply in_or_app. right. now left.
  - exact H.
Qed.

Lemma exec_timer_runs (s : System) (a : Action) :
  timer_runs (world s) -> timer_runs (world (exec s a)).
Proof.
  intros H. destruct a as [e|n result|h]; cbn [exec].
  - unfold spawn, timer_runs; cbn [world].
    destruct (handle_timer e (world s)) as [-> ->]. exact H.
  - destruct (nth_error (pending s) n) as [t|]; trivial.
    destruct (forallb (satisfies (query t)) result); trivial.
    unfold spawn; cbn [world]. now apply resume_timer_runs.
  - now destruct (existsb (Nat.eqb h) (intervals (world s))).
Qed.

(** X9.  Whatever happens, overlapping calls of [start] included, the handle
    held in [timer] is that of a timer that runs: [stop] never clears a
    timer that is gone. *)
Theorem timer_held_runs (s : System) (schedule : list Action) :
  timer_runs (world s) -> timer_runs (world (run s schedule)).
Proof.
  revert s. induction schedule as [|a rest IH]; intros s H; trivial.
  unfold run. cbn [fold_left]. apply IH. now apply exec_timer_runs.
Qed.

Lemma starts_app (l l' : list Task) : starts (l ++ l') = starts l + starts l'.
Proof.
  induction l as [|t l IH]; trivial. destruct t; simpl; lia.
Qed.

Lemma starts_removed (l : list Task) (n : nat) (t : Task) :
  nth_error l n = Some t ->
  starts l =
  starts (firstn n l ++ skipn (S n) l)
  + match t with Start_await => 1 | _ => 0 end.
Proof.
  revert n. induction l as [|x l IH]; intros [|n] H; try discriminate.
  - injection H as ->. cbn [firstn skipn app]. destruct t; simpl; lia.
  - cbn [nth_error] in H. specialize (IH n H).
    cbn [firstn skipn app] in *. destruct x; simpl; lia.
Qed.

Lemma handle_starts (e : Event) (w : World) :
  starts (fst (handle e w)) =
  match e, timer w with
  | Created, None => 1
  | _, _ => 0
  end.
Proof.
  destruct e as [|delta| |[]]; try reflexivity.
  - unfold handle, onCreated, start. cbn [timer sendMessage emit].
    now destruct (timer w).
  - unfold handle, onChanged.
    destruct (DownloadDelta.state delta) as [st|]; [|reflexivity].
    now destruct (completed (StringDelta.current st)).
Qed.

Lemma resume_starts (t : Task) (result : list DownloadItem.t) (w : World) :
  starts (fst (resume t result w)) = 0.
Proof.
  destruct t; cbn [resume].
  - unfold drawIcon_resume.
    destruct (color (unchecked w) result); [|reflexivity].
    now destruct (0 <? List.length result)%nat.
  - unfold tick_resume. now destruct (0 <? List.length result)%nat.
  - unfold start_resume. now destruct (List.length result <=? 0)%nat.
  - reflexivity.
Qed.

Lemma stop_one_timer (w : World) : one_timer w -> one_timer (stop w).
Proof.
  unfold one_timer, stop. destruct (timer w) as [h|] eqn:E; intros H.
  - cbn. rewrite H. cbn. now rewrite Nat.eqb_refl.
  - now rewrite E.
Qed.

Lemma exec_calm (s : System) (a : Action) :
  calm s -> start_apart s a = true -> calm (exec s a).
Proof.
  unfold calm. intros [H1 [H2 H3]] Ha.
  destruct a as [e|n result|h]; cbn [exec].
  - unfold spawn, one_timer; cbn [world pending].
    destruct (handle_timer e (world s)) as [Et Ei].
    rewrite Et, Ei, starts_app, handle_starts.
    split; [exact H1|].
    destruct e; cbn [start_apart] in Ha;
      try (rewrite Nat.add_0_r; now split).
    apply Nat.eqb_eq in Ha. rewrite Ha.
    destruct (timer (world s)); cbn; split; auto; lia.
  - destruct (nth_error (pending s) n) as [t|] eqn:En; [|now repeat split].
    destruct (forallb (satisfies (query t)) result); [|now repeat split].
    unfold spawn; cbn [world pending].
    rewrite starts_app, resume_starts, Nat.add_0_r.
    pose proof (starts_removed _ _ _ En) as Hr.
    destruct t; cbn [resume].
    + assert (E : timer (snd (drawIcon_resume result (world s))) = timer (world s)
                  /\ intervals (snd (drawIcon_resume result (world s)))
                     = intervals (world s)).
      { unfold drawIcon_resume.
        destruct (color (unchecked (world s)) result); [|now split].
        now destruct (0 <? List.length result)%nat. }
      destruct E as [Et Ei]. unfold one_timer. rewrite Et, Ei.
      repeat split; trivial; try lia. intros. apply H3. lia.
    + unfold tick_resume.
      destruct (0 <? List.length result)%nat; cbn [snd].
      * repeat split; trivial; try lia. intros. apply H3. lia.
      * split; [now apply stop_one_timer|]. split; [lia|].
        intros _. apply stop_timer.
    + assert (Hs : starts (pending s) = 1) by lia.
      specialize (H3 Hs). unfold start_resume.
      destruct (List.length result <=? 0)%nat; cbn [snd].
      * repeat split; trivial; lia.
      * split; [|split; [lia|intros; lia]].
        unfold one_timer in *. rewrite H3 in H1. cbn. now rewrite H1.
    + repeat split; trivial; try lia. intros. apply H3. lia.
  - destruct (existsb (Nat.eqb h) (intervals (world s))); [|now repeat split].
    unfold spawn; cbn [world pending tick fst snd].
    rewrite starts_app. cbn [starts]. rewrite Nat.add_0_r. now repeat split.
Qed.

(** X10.  While no download is created during a call of [start] that waits
    for its answer, the timers that run are the one whose handle is held: one
    timer at most, and none when [timer] is empty. *)
Theorem one_timer_when_starts_apart (s : System) (schedule : list Action) :
  calm s ->
  starts_apart s schedule = true ->
  calm (run s schedule) /\ List.length (intervals (world (run s schedule))) <= 1.
Proof.
  intros Hc Hs.
  assert (H : calm (run s schedule)).
  { revert s Hc Hs. induction schedule as [|a rest IH]; intros s Hc Hs; trivial.
    cbn [starts_apart] in Hs. apply andb_true_iff in Hs. destruct Hs as [Ha Hr].
    unfold run. cbn [fold_left]. apply IH; trivial. now apply exec_calm. }
  split; trivial. destruct H as [H _]. unfold one_timer in H. rewrite H.
  destruct (timer (world (run s schedule))); cbn; lia.
Qed.

(** *** The buffer and the errors *)



Lemma present_records (l : list (option DownloadItem.t)) :
  forallb present l = true -> map Some (records l) = l.
Proof.
  induction l as [|[d|] l IH]; simpl; trivial; try discriminate.
  intros H. now rewrite IH.
Qed.

Lemma emit_sound (e : Effect) (w : World) :
  e <> TypeError -> sound w -> sound (emit e w).
Proof.
  unfold sound. intros He [H1 H2]. split; trivial.
  cbn [log emit]. rewrite in_app_iff. intros [H|[H|[]]]; auto.
Qed.

Lemma stop_sound (w : World) : sound w -> sound (stop w).
Proof.
  unfold stop. destruct (timer w); trivial. intros [H1 H2].
  split; trivial. cbn. rewrite !in_app_iff. cbn.
  intros [[H|[H|[]]]|[H|[]]]; auto; discriminate.
Qed.

Lemma resume_sound (t : Task) (result : list DownloadItem.t) (w : World) :
  match t, result with OnChanged_await _, [] => False | _, _ => True end ->
  sound w -> sound (snd (resume t result w)).
Proof.
  intros Hhit Hs. destruct t; cbn [resume].
  - unfold drawIcon_resume.
    destruct Hs as [H1 H2].
    rewrite <- (present_records _ H1) at 1. rewrite color_records.
    destruct (0 <? List.length result)%nat; cbn [snd];
      apply emit_sound; try discriminate; now split.
  - unfold tick_resume.
    destruct (0 <? List.length result)%nat; cbn [snd drawIcon].
    + apply emit_sound; [discriminate|trivial].
    + now apply stop_sound.
  - unfold start_resume.
    destruct (List.length result <=? 0)%nat; cbn [snd]; trivial.
    destruct Hs as [H1 H2]. split; trivial.
    cbn. rewrite !in_app_iff. cbn.
    intros [[H|[H|[]]]|[H|[]]]; auto; discriminate.
  - destruct result as [|item others]; [contradiction|].
    unfold onChanged_resume. cbn [snd drawIcon hd_error].
    apply emit_sound; [discriminate|].
    destruct Hs as [H1 H2]. split; trivial.
    cbn [unchecked set_unchecked]. rewrite forallb_app, H1. reflexivity.
Qed.

Lemma handle_sound (e : Event) (w : World) :
  sound w -> sound (snd (handle e w)).
Proof.
  intros Hs. destruct e as [|delta| |message]; cbn [handle].
  - unfold onCreated, start.
    destruct (timer (sendMessage Ping w)); cbn [snd];
      apply emit_sound; trivial; discriminate.
  - unfold onChanged.
    destruct (DownloadDelta.state delta) as [st|];
      [destruct (completed (StringDelta.current st))|];
      cbn [snd drawIcon]; apply emit_sound; trivial; discriminate.
  - apply emit_sound; trivial; discriminate.
  - unfold onMessage. destruct (Message_eqb message PopupOpened); trivial.
    destruct Hs as [H1 H2]. split; trivial.
Qed.

Lemma exec_sound (s : System) (a : Action) :
  sound (world s) -> lookup_hit s a = true -> sound (world (exec s a)).
Proof.
  intros Hs Hh. destruct a as [e|n result|h]; cbn [exec].
  - unfold spawn; cbn [world]. now apply handle_sound.
  - cbn [lookup_hit] in Hh.
    destruct (nth_error (pending s) n) as [t|]; trivial.
    destruct (forallb (satisfies (query t)) result); trivial.
    unfold spawn; cbn [world]. apply resume_sound; trivial.
    destruct t; trivial. now destruct result.
  - now destruct (existsb (Nat.eqb h) (intervals (world s))).
Qed.

(** X12.  Along every run in which each query by id of the change handler is
    answered with at least one record, a buffer of records stays a buffer of
    records and no redraw raises a TypeError. *)
Theorem no_TypeError_when_lookups_hit (s : System) (schedule : list Action) :
  sound (world s) ->
  lookups_hit s schedule = true ->
  sound (world (run s schedule)).
Proof.
  revert s. induction schedule as [|a rest IH]; intros s Hs Hh; trivial.
  cbn [lookups_hit] in Hh. apply andb_true_iff in Hh. destruct Hh as [Ha Hr].
  unfold run. cbn [fold_left]. apply IH; trivial. now apply exec_sound.
Qed.

(** *** A download is created *)

Lemma drawIcon_resume_done (active : list DownloadItem.t) (w : World) :
  fst (drawIcon_resume active w) = [].
Proof.
  unfold drawIcon_resume.
  destruct (color (unchecked w) active); [|reflexivity].
  now destruct (0 <? List.length active)%nat.
Qed.

(** X13.  A download created while the timer runs only pings the popup and
    asks nothing.  Created while the timer is idle, it pings and asks for the
    active downloads; with none it does no more, and with one it starts a
    timer of [TICK_MS], holds its handle, and runs a first tick at once,
    which pings again and redraws. *)
Theorem onCreated_behaviour (w : World) (d d' : DownloadItem.t)
  (active active' later : list DownloadItem.t) :
  match timer w with
  | Some _ => onCreated w = ([], sendMessage Ping w)
  | None =>
      answered [[]] (onCreated w) = ([], sendMessage Ping w) /\
      exists w',
        answered [d :: active; d' :: active'; later] (onCreated w) =
        drawIcon_resume later w' /\
        timer w' = Some (next_handle w) /\
        intervals w' = intervals w ++ [next_handle w] /\
        unchecked w' = unchecked w /\
        log w' = log w ++ [SendMessage Ping; ConsoleLog "Timer started";
                           SetInterval (next_handle w) TICK_MS;
                           SendMessage Ping]
  end.
Proof.
  destruct (timer w) as [h|] eqn:E.
  - unfold onCreated, start. cbn [timer sendMessage emit]. now rewrite E.
  - unfold answered, onCreated, start. cbn [timer sendMessage emit]. rewrite E.
    split; [reflexivity|].
    exists (sendMessage Ping
              (set_timer (Some (next_handle w))
                 (snd (setInterval TICK_MS
                         (consoleLog "Timer started" (sendMessage Ping w)))))).
    split.
    + cbn [fst snd settle resume app start_resume tick_resume tick drawIcon
           List.length Nat.leb Nat.ltb setInterval].
      cbn [next_handle consoleLog sendMessage emit].
      match goal with
      | |- (let (_, _) := drawIcon_resume ?l ?W in _) = _ =>
          pose proof (drawIcon_resume_done l W) as Hd;
          destruct (drawIcon_resume l W) as [new w2]
      end.
      cbn [fst] in Hd. subst new. reflexivity.
    + cbn. rewrite <- !app_assoc. repeat split.
Qed.

End Manager.

(** ** Examples and counterexamples *)

(** The second scenario of the specification: a download half done and one
    just completed give the fraction [150 / 200] in the colour Complete. *)
Example redraw_three_quarters :
  answered computePercentage_spec [[halfway]]
    (drawIcon (set_unchecked [Some finished] constructor)) =
  ([], emit (IconDraw (Some Complete) (Some (js_div 150 200)))
         (set_unchecked [Some finished] constructor)).
Proof. reflexivity. Qed.

(** A download cancelled by the user does not turn the icon to Error. *)
Example canceled_not_error :
  color [Some canceled] [] = Some Normal /\
  color [Some canceled; Some finished] [halfway] = Some Complete.
Proof. split; reflexivity. Qed.

(** A failure goes before a pause; an interruption without error code is a
    failure too. *)
Example failed_before_paused :
  color [Some failed] [pausedItem] = Some Error /\
  color [Some canceled] [pausedItem] = Some Paused /\
  color [Some failedNoCode] [] = Some Error.
Proof. repeat split. Qed.

(** C2, as stated, fails: a download that has received nothing yet, and a
    record without [bytesReceived], are left out of the sums although each
    has a [fileSize]. *)
Lemma fileSize_alone_skipped :
  skipped (Some justStarted) = true /\
  DownloadItem.bytesReceived justStarted = Some 0%Z /\
  DownloadItem.fileSize justStarted = Some 100%Z /\
  computePercentage_spec justStarted = (0, 100)%Z /\
  total computePercentage_spec [] [justStarted] = (0, 0)%Z /\
  skipped (Some noBytes) = true /\
  ~ (DownloadItem.bytesReceived noBytes = None
     /\ DownloadItem.fileSize noBytes = None) /\
  total computePercentage_spec [Some noBytes] [halfway] = (50, 100)%Z.
Proof.
  repeat split. intros [_ H]. discriminate H.
Qed.

(** C4, as stated, fails: one download that has received nothing yet, and
    the redraw carries NaN. *)
Lemma justStarted_NaN :
  forallb skipped (unchecked constructor ++ map Some [justStarted]) = true /\
  answered computePercentage_spec [[justStarted]] (drawIcon constructor) =
  ([], emit (IconDraw (Some Normal) (Some NaN)) constructor).
Proof. split; reflexivity. Qed.

Lemma all_skipped_NaN_witness :
  [justStarted] <> [] /\
  forallb skipped (unchecked constructor ++ map Some [justStarted]) = true /\
  color (unchecked constructor) [justStarted] = Some Normal /\
  total computePercentage_spec (unchecked constructor) [justStarted] = (0, 0)%Z /\
  answered computePercentage_spec [[justStarted]] (drawIcon constructor) =
  ([], emit (IconDraw (Some Normal) (Some NaN)) constructor).
Proof.
  split; [discriminate|].
  split; [reflexivity|].
  split; [reflexivity|].
  apply (all_skipped_NaN computePercentage_spec constructor [justStarted] Normal);
    [discriminate | reflexivity | reflexivity].
Defined.



(** ** Instances of the further properties *)

Lemma color_members_witness :
  (forall d, In d [finished; canceled] <-> In d [canceled; finished; canceled]) /\
  (forall d, In d [halfway] <-> In d [halfway; halfway]) /\
  color (map Some [finished; canceled]) [halfway] =
  color (map Some [canceled; finished; canceled]) [halfway; halfway].
Proof.
  assert (Hu : forall d, In d [finished; canceled]
                         <-> In d [canceled; finished; canceled])
    by (intros d; simpl; tauto).
  assert (Ha : forall d, In d [halfway] <-> In d [halfway; halfway])
    by (intros d; simpl; tauto).
  split; [exact Hu|]. split; [exact Ha|].
  exact (color_members _ _ _ _ Hu Ha).
Defined.

Lemma error_stays_witness :
  color [Some failed] [halfway] = Some Error /\
  color ([Some failed] ++ [None; Some finished]) [pausedItem] = Some Error.
Proof.
  split; [reflexivity|].
  apply (error_stays [Some failed] [None; Some finished] [halfway] [pausedItem]).
  reflexivity.
Defined.

Lemma active_redraw_witness :
  color (unchecked (set_unchecked [Some finished] constructor)) [halfway]
  = Some Complete /\
  answered computePercentage_spec [[halfway]]
    (drawIcon (set_unchecked [Some finished] constructor)) =
  ([], emit (IconDraw (Some Complete) (Some (js_div 150 200)))
         (set_unchecked [Some finished] constructor)).
Proof.
  split; [reflexivity|].
  apply (active_redraw computePercentage_spec
           (set_unchecked [Some finished] constructor) halfway [] Complete).
  reflexivity.
Defined.

Lemma fraction_in_unit_witness :
  let w := set_unchecked [Some finished] constructor in
  color (unchecked w) [halfway] = Some Complete /\
  (forall x, In x (counted (unchecked w) [halfway]) ->
     (0 <= fst (computePercentage_spec x) <= snd (computePercentage_spec x))%Z) /\
  (0 < snd (total computePercentage_spec (unchecked w) [halfway]))%Z /\
  exists q,
    answered computePercentage_spec [[halfway]] (drawIcon w) =
    ([], emit (IconDraw (Some Complete) (Some (Finite q))) w)
    /\ (0 <= q)%Q /\ (q <= 1)%Q.
Proof.
  cbv zeta.
  assert (Hb : forall x,
             In x (counted (unchecked (set_unchecked [Some finished] constructor))
                     [halfway]) ->
             (0 <= fst (computePercentage_spec x)
                <= snd (computePercentage_spec x))%Z).
  { intros x [<-|[<-|[]]]; cbn; lia. }
  split; [reflexivity|]. split; [exact Hb|]. split; [reflexivity|].
  apply (fraction_in_unit computePercentage_spec
           (set_unchecked [Some finished] constructor) halfway [] Complete);
    [reflexivity | exact Hb | reflexivity].
Defined.

Lemma total_order_witness :
  Permutation [Some finished; Some canceled] [Some canceled; Some finished] /\
  Permutation [halfway; resumed] [resumed; halfway] /\
  (forall x, In x (counted [Some finished; Some canceled] [halfway; resumed]) ->
             (0 <= fst (computePercentage_spec x))%Z
             /\ (0 <= snd (computePercentage_spec x))%Z) /\
  total computePercentage_spec [Some finished; Some canceled] [halfway; resumed]
  = (170, 400)%Z /\
  total computePercentage_spec [Some finished; Some canceled] [halfway; resumed]
  = total computePercentage_spec [Some canceled; Some finished] [resumed; halfway].
Proof.
  assert (Hb : forall x,
             In x (counted [Some finished; Some canceled] [halfway; resumed]) ->
             (0 <= fst (computePercentage_spec x))%Z
             /\ (0 <= snd (computePercentage_spec x))%Z).
  { intros x [<-|[<-|[<-|[<-|[]]]]]; cbn; lia. }
  split; [apply perm_swap|]. split; [apply perm_swap|].
  split; [exact Hb|]. split; [reflexivity|].
  refine (proj1 _).
  apply (total_order computePercentage_spec
           [Some finished; Some canceled] [Some canceled; Some finished]
           [halfway; resumed] [resumed; halfway]);
    [apply perm_swap | apply perm_swap | exact Hb
     | vm_compute; discriminate | vm_compute; discriminate].
Defined.

Lemma timer_held_runs_witness :
  let schedule :=
    [Dispatch Created; Dispatch Created; Answer 0 [halfway];
     Answer 0 [halfway]; Answer 0 [halfway]] in
  timer_runs (world initial) /\
  timer (world (run computePercentage_spec initial schedule)) = Some 2 /\
  intervals (world (run computePercentage_spec initial schedule)) = [0; 1; 2] /\
  timer_runs (world (run computePercentage_spec initial schedule)).
Proof.
  split; [exact I|]. split; [reflexivity|]. split; [reflexivity|].
  apply (timer_held_runs computePercentage_spec initial). exact I.
Defined.

Lemma one_timer_when_starts_apart_witness :
  let schedule :=
    [Answer 0 [halfway]; Dispatch Created; Answer 0 [halfway];
     Answer 0 [halfway]; Fire 0; Answer 0 []; Dispatch Created;
     Answer 0 [halfway]; Answer 0 [halfway]; Answer 0 [halfway]] in
  calm initial /\
  starts_apart computePercentage_spec initial schedule = true /\
  calm (run computePercentage_spec initial schedule) /\
  List.length (intervals (world (run computePercentage_spec initial schedule))) <= 1.
Proof.
  assert (Hc : calm initial)
    by (split; [reflexivity | split; [apply le_n | reflexivity]]).
  split; [exact Hc|]. split; [reflexivity|].
  apply (one_timer_when_starts_apart computePercentage_spec initial);
    [exact Hc | reflexivity].
Defined.


Lemma no_TypeError_when_lookups_hit_witness :
  let schedule :=
    [Answer 0 [halfway]; Answer 0 [halfway]; Answer 0 [halfway];
     Dispatch (Changed (stateDelta 2 "complete")); Answer 0 [finished];
     Answer 0 [halfway]; Fire 0; Answer 0 []; Dispatch (Received PopupOpened);
     Answer 0 []] in
  sound (world initial) /\
  lookups_hit computePercentage_spec initial schedule = true /\
  sound (world (run computePercentage_spec initial schedule)).
Proof.
  assert (Hs : sound (world initial)).
  { split; [reflexivity|]. intros [H|[H|[]]]; discriminate. }
  split; [exact Hs|]. split; [reflexivity|].
  apply (no_TypeError_when_lookups_hit computePercentage_spec initial);
    [exact Hs | reflexivity].
Defined.
